(** * python-kasa: the brightness module and the energy statistics engine

    A shallow embedding of [kasa/smart/modules/brightness.py] and of the
    energy statistics engine exercised by [tests/test_emeter.py], with the
    properties stated about them. *)

From Stdlib Require Import Floats.PrimFloat Uint63.
From Stdlib Require Import ZArith QArith Qfield.
From stdpp Require Import base option list strings pretty gmap fin_maps.

Local Open Scope Z_scope.

(** ** Python values

    The values a caller can hand to [set_brightness] and the values that
    travel in the raw snapshot and in the parameters of a remote call. *)

Inductive pyval : Type :=
| PyNone
| PyBool (b : bool)
| PyInt (z : Z)
| PyStr (s : string)
| PyFloat (text : string).
(* A float is carried as its [str()] rendering: the module only tests that
   it is not an [int] and formats it into the error message. *)

#[global] Instance pyval_eq_dec : EqDecision pyval.
Proof. solve_decision. Defined.

(** [isinstance(v, int)]: [bool] is a subclass of [int]. *)
Definition isinstance_int (v : pyval) : bool :=
  match v with
  | PyBool _ | PyInt _ => true
  | PyNone | PyStr _ | PyFloat _ => false
  end.

(** The integer an [int] instance denotes ([True] is 1, [False] is 0). *)
Definition int_value (v : pyval) : option Z :=
  match v with
  | PyInt z => Some z
  | PyBool b => Some (if b then 1 else 0)
  | PyNone | PyStr _ | PyFloat _ => None
  end.

(** [a <= b] on [int] instances.  The module evaluates it only behind the
    [isinstance] test, so no other operand type reaches it. *)
Definition py_le (a b : pyval) : bool :=
  match int_value a, int_value b with
  | Some x, Some y => x <=? y
  | _, _ => false
  end.

(** [a == b]: numeric on [int] instances, structural on the others. *)
Definition py_eq (a b : pyval) : bool :=
  match int_value a, int_value b with
  | Some x, Some y => x =? y
  | Some _, None | None, Some _ => false
  | None, None => bool_decide (a = b)
  end.

(** ** Exceptions *)

Inductive exn : Type :=
| ValueError (msg : string)
| KeyError (key : string)
| RemoteError (cause : string).

Inductive result (A : Type) : Type :=
| Ok (a : A)
| Err (e : exn).
Arguments Ok {A} a.
Arguments Err {A} e.

(** CPython's default limit on the number of digits of an [int] that is
    converted to a decimal string ([sys.get_int_max_str_digits()]). *)
Definition INT_MAX_STR_DIGITS : Z := 4300.

(** The int has more decimal digits than the limit allows. *)
Definition exceeds_str_digits (z : Z) : bool :=
  10 ^ INT_MAX_STR_DIGITS <=? Z.abs z.

(** [str(v)], as an f-string replacement field renders it.  The
    interpreter refuses to render an [int] with more digits than the limit
    and raises its own [ValueError]. *)
Definition py_str (v : pyval) : result string :=
  match v with
  | PyNone => Ok "None"
  | PyBool true => Ok "True"
  | PyBool false => Ok "False"
  | PyInt z =>
      if exceeds_str_digits z
      then Err (ValueError
                  ("Exceeds the limit (" +:+ pretty INT_MAX_STR_DIGITS
                   +:+ " digits) for integer string conversion; "
                   +:+ "use sys.set_int_max_str_digits() to increase the limit"))
      else Ok (pretty z)
  | PyStr s => Ok s
  | PyFloat text => Ok text
  end.

(** ** Remote operations and awaiting programs *)

(** What [set_brightness] can await: the owning device's [turn_off()], the
    light-effect module's [set_brightness(value)], and the module's own
    [call(method, params)]. *)
Inductive remote_op : Type :=
| TurnOff
| LightEffectSetBrightness (value : pyval)
| Call (method : string) (params : gmap string pyval).

(** The raw acknowledgment of a remote operation: a dict. *)
Abbreviation response := (gmap string pyval).

(** A coroutine body: it returns, raises, or awaits an operation and goes
    on with its outcome. *)
Inductive prog (A : Type) : Type :=
| Ret (a : A)
| Raise (e : exn)
| Await (op : remote_op) (k : response -> prog A).
Arguments Ret {A} a.
Arguments Raise {A} e.
Arguments Await {A} op k.

(** [return await op] *)
Definition await (op : remote_op) : prog response := Await op Ret.

(** Running a program against a device: every awaited operation is logged
    in order; a failing operation raises into the caller. *)
Fixpoint run {A : Type} (dev : remote_op -> result response) (p : prog A)
  : list remote_op * result A :=
  match p with
  | Ret a => ([], Ok a)
  | Raise e => ([], Err e)
  | Await op k =>
      match dev op with
      | Ok r => let '(ops, out) := run dev (k r) in (op :: ops, out)
      | Err e => ([op], Err e)
      end
  end.

(** [d[key]] on a dict. *)
Definition getitem (d : gmap string pyval) (key : string) : result pyval :=
  match d !! key with
  | Some v => Ok v
  | None => Err (KeyError key)
  end.

(** ** kasa/smart/modules/brightness.py *)

Module LightEffect.
(** The light-effect module as the brightness module reads it. *)
Record t : Type := mk { is_active : bool; brightness : pyval }.
End LightEffect.

(** The owning device: its module registry, by module name. *)
Record SmartDevice : Type := { modules : gmap string LightEffect.t }.

Module Feature.

(** Modelled from the spec: the value types of a feature descriptor; the
    declaration of [Feature.Type] is missing. *)
Inductive Type_ : Type := Boolean | Number | Choice | Action | String_.

(** Modelled from the spec: the categories of a feature descriptor; the
    declaration of [Feature.Category] is missing. *)
Inductive Category : Type := Primary | Info | Config | Debug.

(** The arguments [_initialize_features] constructs a [Feature] with, the
    container being the module that owns the feature. *)
Record t (Container : Type) : Type := mk {
  device : SmartDevice;
  id : string;
  name : string;
  container : Container;
  attribute_getter : string;
  attribute_setter : string;
  range_getter : unit -> Z * Z;
  type : Type_;
  category : Category;
}.
Arguments mk {Container} _ _ _ _ _ _ _ _ _.
Arguments device {Container} _.
Arguments id {Container} _.
Arguments name {Container} _.
Arguments container {Container} _.
Arguments attribute_getter {Container} _.
Arguments attribute_setter {Container} _.
Arguments range_getter {Container} _ _.
Arguments type {Container} _.
Arguments category {Container} _.

End Feature.

Module Brightness.

Definition BRIGHTNESS_MIN : Z := 0.
Definition BRIGHTNESS_MAX : Z := 100.

(** A brightness module instance: its owning device and its view of
    the cached raw snapshot. *)
Record t : Type := mk { _device : SmartDevice; data : gmap string pyval }.

Section WithModuleName.

(** The registry key [Module.SmartLightEffect], declared outside this
    module. *)
Variable SmartLightEffect : string.

Definition brightness (self : t) : result pyval :=
  match modules (_device self) !! SmartLightEffect with
  | Some light_effect =>
      if LightEffect.is_active light_effect
      then Ok (LightEffect.brightness light_effect)
      else getitem (data self) "brightness"
  | None => getitem (data self) "brightness"
  end.

Definition set_brightness (self : t) (brightness : pyval)
    (transition : pyval) : prog response :=
  if negb (isinstance_int brightness)
     || negb (py_le (PyInt BRIGHTNESS_MIN) brightness
              && py_le brightness (PyInt BRIGHTNESS_MAX))
  then
    match py_str brightness with
    | Ok text =>
        Raise (ValueError
                 ("Invalid brightness value: " +:+ text +:+ " "
                  +:+ "(valid range: " +:+ pretty BRIGHTNESS_MIN +:+ "-"
                  +:+ pretty BRIGHTNESS_MAX +:+ "%)"))
    | Err e => Raise e
    end
  else if py_eq brightness (PyInt 0) then
    await TurnOff
  else
    match modules (_device self) !! SmartLightEffect with
    | Some light_effect =>
        if LightEffect.is_active light_effect
        then await (LightEffectSetBrightness brightness)
        else await (Call "set_device_info" {[ "brightness" := brightness ]})
    | None => await (Call "set_device_info" {[ "brightness" := brightness ]})
    end.

Definition _check_supported (self : t) : bool :=
  bool_decide (is_Some (data self !! "brightness")).

End WithModuleName.

Definition REQUIRED_COMPONENT : string := "brightness".

(** [_initialize_features]: the features handed to [_add_feature], after
    the ones [super()._initialize_features()] registered. *)
Definition _initialize_features (inherited : list (Feature.t t)) (self : t)
  : list (Feature.t t) :=
  let device := _device self in
  inherited ++
  [Feature.mk device "brightness" "Brightness" self "brightness"
     "set_brightness" (fun _ => (BRIGHTNESS_MIN, BRIGHTNESS_MAX))
     Feature.Number Feature.Primary].

(** [query]: brightness is contained in the main device info response. *)
Definition query (self : t) : gmap string pyval := ∅.

End Brightness.

(** ** The energy statistics engine

    The engine itself ([EmeterStatus], the [Emeter] module and its
    statistics helpers) is not among the embedded sources; its behaviour is
    the one the specification and [tests/test_emeter.py] describe. *)

(** Modelled from the spec: the numbers of a reading.  The engine reports
    floats, which multiply and divide by 1000 with rounding; the spec words
    its derivations as exact.  The arithmetic is therefore an interface with
    both instances; the number type of [EmeterStatus] is missing. *)
Class Number (num : Type) : Type := {
  zero : num;
  one : num;
  thousand : num;
  num_mul : num -> num -> num;
  num_div : num -> num -> num;
  num_eqb : num -> num -> bool;
}.

(** Python's [float]: IEEE 754 binary64, [==] being the IEEE equality. *)
#[global] Instance binary64 : Number float := {|
  zero := 0%float;
  one := 1%float;
  thousand := 1000%float;
  num_mul := PrimFloat.mul;
  num_div := PrimFloat.div;
  num_eqb := PrimFloat.eqb;
|}.

(** Exact rational arithmetic. *)
#[global] Instance exact : Number Q := {|
  zero := 0%Q;
  one := 1%Q;
  thousand := 1000%Q;
  num_mul := Qmult;
  num_div := Qdiv;
  num_eqb := Qeq_bool;
|}.

Module EmeterStatus.

(** Modelled from the spec: the canonical/milli unit pairs of a reading
    (V/mV, A/mA, W/mW, kWh/Wh); the declaration of [EmeterStatus] is
    missing. *)
Definition unit_pairs : list (string * string) :=
  [("voltage", "voltage_mv"); ("current", "current_ma");
   ("power", "power_mw"); ("total", "total_wh")].


Section WithNumber.

Context {num : Type} {N : Number num}.

(** Modelled from the spec: canonical to milli multiplies by 1000 and
    milli to canonical divides by 1000; the conversions of [EmeterStatus]
    are missing. *)
Definition to_milli (v : num) : num := num_mul v thousand.
Definition to_canonical (v : num) : num := num_div v thousand.

(** Modelled from the spec: the access to a key that the raw reading does
    not hold.  A canonical key is its milli unit divided by 1000, and
    [None] when the reading has neither (the "current" of
    [test_emeterstatus_missing_current]); a milli key is its canonical unit
    times 1000; a key that is neither in the reading nor derivable from it
    fails, be it a milli key whose canonical unit is absent or a key
    outside the unit pairs.  [EmeterStatus.__getitem__] is missing. *)
Fixpoint derive (pairs : list (string * string)) (raw : gmap string num)
    (key : string) : result (option num) :=
  match pairs with
  | [] => Err (KeyError key)
  | (canonical, milli) :: rest =>
      if String.eqb key canonical then Ok (to_canonical <$> raw !! milli)
      else if String.eqb key milli then
        match raw !! canonical with
        | Some v => Ok (Some (to_milli v))
        | None => Err (KeyError canonical)
        end
      else derive rest raw key
  end.

(** Modelled from the spec: [status[key]].  A key of the raw reading is
    returned as it is; any other key is derived from its paired unit when
    it can be.  [EmeterStatus.__getitem__] is missing. *)
Definition getitem (raw : gmap string num) (key : string)
  : result (option num) :=
  match raw !! key with
  | Some v => Ok (Some v)
  | None => derive unit_pairs raw key
  end.

(** The assertion of [test_emeter_status] on one unit pair:
    [d[milli] == d[canonical] * 1000]. *)
Definition milli_identity (raw : gmap string num) (canonical milli : string)
  : Prop :=
  exists c m : num,
    getitem raw canonical = Ok (Some c)
    /\ getitem raw milli = Ok (Some m)
    /\ num_eqb m (num_mul c thousand) = true.

End WithNumber.

End EmeterStatus.

Module Date.
(** Modelled from the spec: the current calendar date, which the engine
    reads from the clock. *)
Record t : Type := mk { year : Z; month : Z; day : Z }.
End Date.

Module DayStat.
(** Modelled from the spec: one retained entry of the daily list, (day,
    month, year, energy in Wh). *)
Record t (num : Type) : Type :=
  mk { year : Z; month : Z; day : Z; energy_wh : num }.
Arguments mk {num} year month day energy_wh.
Arguments year {num} _.
Arguments month {num} _.
Arguments day {num} _.
Arguments energy_wh {num} _.
End DayStat.

Module MonthStat.
(** Modelled from the spec: one retained entry of the monthly totals
    list. *)
Record t (num : Type) : Type := mk { year : Z; month : Z; energy_wh : num }.
Arguments mk {num} year month energy_wh.
Arguments year {num} _.
Arguments month {num} _.
Arguments energy_wh {num} _.
End MonthStat.

Module Emeter.

Section WithNumber.

Context {num : Type} {N : Number num}.

(** Modelled from the spec: the reported value of a stored milli (Wh)
    value, unscaled unless kWh are asked for; the division by 1000 is
    applied as a scale factor, 1/1000, that multiplies the stored value.
    The statistics helper of the engine is missing. *)
Definition scale (kwh : bool) (wh : num) : num :=
  if kwh then num_mul wh (num_div one thousand) else wh.

(** Modelled from the spec: the calendar-key to value mapping built from
    a list of entries, a later entry replacing an earlier one with the
    same key as in a dict built entry by entry; the statistics helper of
    the engine is missing. *)
Definition to_mapping {E : Type} (key : E -> Z) (energy : E -> num)
    (kwh : bool) (entries : list E) : gmap Z num :=
  foldl (fun acc e => <[key e := scale kwh (energy e)]> acc) ∅ entries.

(** Modelled from the spec: [get_daily_stats(year, month, kwh)] over the
    retained daily list, year and month defaulting to the current ones;
    [Emeter.get_daily_stats] is missing. *)
Definition get_daily_stats (day_list : list (DayStat.t num)) (now : Date.t)
    (year month : option Z) (kwh : bool) : gmap Z num :=
  let y := default (Date.year now) year in
  let m := default (Date.month now) month in
  to_mapping DayStat.day DayStat.energy_wh kwh
    (filter (fun e => DayStat.year e = y ∧ DayStat.month e = m) day_list).

(** Modelled from the spec: [get_monthly_stats(year, kwh)] over the
    retained monthly list, the year defaulting to the current one;
    [Emeter.get_monthly_stats] is missing. *)
Definition get_monthly_stats (month_list : list (MonthStat.t num))
    (now : Date.t) (year : option Z) (kwh : bool) : gmap Z num :=
  let y := default (Date.year now) year in
  to_mapping MonthStat.month MonthStat.energy_wh kwh
    (filter (fun e => MonthStat.year e = y) month_list).

(** Modelled from the spec: the entry is the one of the current day.  The
    retained daily list is the one of the running month, so that the day
    of the month tells. *)
Definition is_today (now : Date.t) (e : DayStat.t num) : Prop :=
  DayStat.day e = Date.day now.

#[global] Instance is_today_dec now e : Decision (is_today now e).
Proof. unfold is_today. apply _. Defined.



(** The assertion of [test_get_emeter_daily] and [test_get_emeter_monthly]
    on one calendar key, [v * 1000 == v2], where [v] is the kwh=true
    value and [v2] the kwh=false one. *)
Definition wh_is_1000_kwh (stats : bool -> gmap Z num) (k : Z) : Prop :=
  forall v, stats true !! k = Some v ->
    exists v2, stats false !! k = Some v2
               /\ num_eqb (num_mul v thousand) v2 = true.

End WithNumber.

End Emeter.

(** ** Derived notions *)

(** A read of [brightness] does not depend on the module's raw snapshot. *)
Definition reads_ignore_snapshot (key : string) (self : Brightness.t) : Prop :=
  forall data,
    Brightness.brightness key (Brightness.mk (Brightness._device self) data)
    = Brightness.brightness key self.

(** The float of a whole number of watt-hours. *)
Definition whole_wh (z : Z) : float := PrimFloat.of_uint63 (Uint63.of_Z z).

(** Two floats are equal or neighbours. *)
Definition within_one_ulp (a b : float) : bool :=
  PrimFloat.eqb a b || PrimFloat.eqb a (PrimFloat.next_up b)
  || PrimFloat.eqb a (PrimFloat.next_down b).

(** A whole number of watt-hours, scaled to kWh and multiplied by 1000
    again, is within one unit in the last place of where it started. *)
Definition kwh_round_trip (z : Z) : bool :=
  within_one_ulp (Emeter.scale true (whole_wh z) * 1000)%float (whole_wh z).

(** [P] holds on every integer from [lo] up to [lo + 2 ^ bits - 1]. *)
Fixpoint all_in (P : Z -> bool) (lo : Z) (bits : nat) : bool :=
  match bits with
  | O => P lo
  | S b => all_in P lo b && all_in P (lo + 2 ^ Z.of_nat b) b
  end.

(** ** Sample devices and readings *)

Definition LIGHT_EFFECT : string := "LightEffect".

(** A dimmable bulb without a light-effect module. *)
Definition plain_bulb : Brightness.t :=
  Brightness.mk {| modules := ∅ |} {[ "brightness" := PyInt 50 ]}.

(** A light strip whose light effect is running at brightness 70. *)
Definition strip_effect_on : Brightness.t :=
  Brightness.mk {| modules := {[ LIGHT_EFFECT := LightEffect.mk true (PyInt 70) ]} |}
                {[ "brightness" := PyInt 50 ]}.

(** The same strip with the effect switched off. *)
Definition strip_effect_off : Brightness.t :=
  Brightness.mk {| modules := {[ LIGHT_EFFECT := LightEffect.mk false (PyInt 70) ]} |}
                {[ "brightness" := PyInt 50 ]}.

(** A device that acknowledges a power-off and a light-effect write and
    whose transport fails on any direct call. *)
Definition flaky_device (op : remote_op) : result response :=
  match op with
  | TurnOff => Ok {[ "device_on" := PyBool false ]}
  | LightEffectSetBrightness _ => Ok ∅
  | Call _ _ => Err (RemoteError "timeout")
  end.

(** The readings of [test_emeterstatus_missing_current]. *)
Definition regular : gmap string float :=
  {[ "err_code" := 0%float; "power_mw" := 0%float; "total_wh" := 13%float;
     "current_ma" := 123%float ]}.

Definition missing_current : gmap string float :=
  {[ "err_code" := 0%float; "power_mw" := 0%float; "total_wh" := 13%float ]}.

(** A plug drawing 1001 mW. *)
Definition reading_1001mw : gmap string float :=
  {[ "err_code" := 0%float; "power_mw" := 1001%float;
     "total_wh" := 13%float ]}.

(** The reading of [regular] in exact arithmetic. *)
Definition regular_exact : gmap string Q :=
  {[ "err_code" := 0%Q; "power_mw" := 0%Q; "total_wh" := 13%Q;
     "current_ma" := 123%Q ]}.

(** The retained daily list of [test_emeter_daily], with the entry the
    test appends for the current day. *)
Definition todays_entry (now : Date.t) (wh : float) : DayStat.t float :=
  DayStat.mk (Date.year now) (Date.month now) (Date.day now) wh.

Definition test_day_list (now : Date.t) : list (DayStat.t float) :=
  [DayStat.mk 2023 1 1 8%float] ++ [todays_entry now 500%float].

Definition a_monday : Date.t := Date.mk 2026 11 2.

(** A day of January 2023 with 1001 Wh. *)
Definition day_list_1001wh : list (DayStat.t float) :=
  [DayStat.mk 2023 1 1 1001%float].

(** The same list in exact arithmetic. *)
Definition day_list_exact : list (DayStat.t Q) :=
  [DayStat.mk 2023 1 1 1001%Q].

(** * Properties *)

(** ** Awaiting programs *)

Lemma run_await (dev : remote_op -> result response) (op : remote_op) :
  run dev (await op) = ([op], dev op).
Proof. unfold await. simpl. destruct (dev op); reflexivity. Qed.

Lemma run_raise {A : Type} (dev : remote_op -> result response) (e : exn) :
  run dev (Raise e : prog A) = ([], Err e).
Proof. reflexivity. Qed.

(** ** Validation of a brightness value *)

Lemma int_value_isinstance (v : pyval) :
  isinstance_int v = true <-> is_Some (int_value v).
Proof.
  destruct v; simpl; split; intros H; try done; try (by eexists);
    by destruct H.
Qed.

Lemma py_le_int (a b : pyval) (x y : Z) :
  int_value a = Some x -> int_value b = Some y ->
  py_le a b = true <-> x <= y.
Proof.
  intros Ha Hb. unfold py_le. rewrite Ha, Hb. apply Z.leb_le.
Qed.

Lemma py_eq_int (a b : pyval) (x y : Z) :
  int_value a = Some x -> int_value b = Some y ->
  py_eq a b = true <-> x = y.
Proof.
  intros Ha Hb. unfold py_eq. rewrite Ha, Hb. apply Z.eqb_eq.
Qed.

Section BrightnessProperties.

Variable SmartLightEffect : string.

Local Abbreviation brightness := (Brightness.brightness SmartLightEffect).
Local Abbreviation set_brightness := (Brightness.set_brightness SmartLightEffect).
Local Abbreviation registry self := (modules (Brightness._device self)).

(** The program of a value that passes validation. *)
Lemma set_brightness_valid (self : Brightness.t) (v transition : pyval) (z : Z) :
  int_value v = Some z -> 0 <= z <= 100 ->
  set_brightness self v transition =
    if z =? 0 then await TurnOff
    else match registry self !! SmartLightEffect with
         | Some light_effect =>
             if LightEffect.is_active light_effect
             then await (LightEffectSetBrightness v)
             else await (Call "set_device_info" {[ "brightness" := v ]})
         | None => await (Call "set_device_info" {[ "brightness" := v ]})
         end.
Proof.
  intros Hv Hz. unfold Brightness.set_brightness.
  assert (isinstance_int v = true) as ->
    by (apply int_value_isinstance; eauto).
  assert (py_le (PyInt Brightness.BRIGHTNESS_MIN) v = true) as ->
    by (eapply py_le_int; [reflexivity | eassumption | apply Hz]).
  assert (py_le v (PyInt Brightness.BRIGHTNESS_MAX) = true) as ->
    by (eapply py_le_int; [eassumption | reflexivity | apply Hz]).
  simpl. unfold py_eq. rewrite Hv. reflexivity.
Qed.

(** The program of a value that fails validation. *)
Lemma set_brightness_invalid (self : Brightness.t) (v transition : pyval) :
  (forall z, int_value v = Some z -> ~ 0 <= z <= 100) ->
  set_brightness self v transition =
    match py_str v with
    | Ok text =>
        Raise (ValueError ("Invalid brightness value: " +:+ text
                           +:+ " (valid range: 0-100%)"))
    | Err e => Raise e
    end.
Proof.
  intros Hv. unfold Brightness.set_brightness.
  destruct (int_value v) as [z|] eqn:Hz.
  - assert (isinstance_int v = true) as ->
      by (apply int_value_isinstance; eauto).
    specialize (Hv z eq_refl).
    assert (py_le (PyInt Brightness.BRIGHTNESS_MIN) v
            && py_le v (PyInt Brightness.BRIGHTNESS_MAX) = false) as ->.
    { apply andb_false_iff.
      destruct (Z_le_gt_dec 0 z) as [H0|H0].
      - right. apply not_true_is_false. intros H.
        eapply py_le_int in H; [| eassumption | reflexivity].
        unfold Brightness.BRIGHTNESS_MAX in H. lia.
      - left. apply not_true_is_false. intros H.
        eapply py_le_int in H; [| reflexivity | eassumption].
        unfold Brightness.BRIGHTNESS_MIN in H. lia. }
    reflexivity.
  - assert (isinstance_int v = false) as ->.
    { apply not_true_is_false. intros H.
      apply int_value_isinstance in H. rewrite Hz in H. by destruct H. }
    reflexivity.
Qed.

(** C1: for every integer value in [0, 100], [set_brightness] awaits exactly
    one operation and returns its outcome: the device's [turn_off()] when
    the value is 0 (and then no brightness write); otherwise the light-effect
    module's [set_brightness] when that module is registered and active;
    otherwise its own [set_device_info] call with the new brightness. *)
Theorem set_brightness_dispatch (self : Brightness.t) (z : Z)
    (transition : pyval) (dev : remote_op -> result response) :
  0 <= z <= 100 ->
  (z = 0 ->
     run dev (set_brightness self (PyInt z) transition)
     = ([TurnOff], dev TurnOff))
  /\ (z <> 0 ->
      forall light_effect,
        registry self !! SmartLightEffect = Some light_effect ->
        LightEffect.is_active light_effect = true ->
        run dev (set_brightness self (PyInt z) transition)
        = ([LightEffectSetBrightness (PyInt z)],
           dev (LightEffectSetBrightness (PyInt z))))
  /\ (z <> 0 ->
      (forall light_effect,
         registry self !! SmartLightEffect = Some light_effect ->
         LightEffect.is_active light_effect = false) ->
      run dev (set_brightness self (PyInt z) transition)
      = ([Call "set_device_info" {[ "brightness" := PyInt z ]}],
         dev (Call "set_device_info" {[ "brightness" := PyInt z ]}))).
Proof.
  intros Hz.
  rewrite (set_brightness_valid self (PyInt z) transition z eq_refl Hz).
  repeat split.
  - intros ->. simpl. apply run_await.
  - intros Hnz le Hle Hact. apply Z.eqb_neq in Hnz. rewrite Hnz, Hle, Hact.
    apply run_await.
  - intros Hnz Hle. apply Z.eqb_neq in Hnz. rewrite Hnz.
    destruct (registry self !! SmartLightEffect) as [le|] eqn:E.
    + rewrite (Hle le eq_refl). apply run_await.
    + apply run_await.
Qed.


(** C3: reading [brightness] returns the light-effect module's brightness
    when that module is registered and active, and [data["brightness"]] in
    every other case (none registered, or registered but inactive). *)
Theorem brightness_read (self : Brightness.t) :
  (forall light_effect,
     registry self !! SmartLightEffect = Some light_effect ->
     LightEffect.is_active light_effect = true ->
     brightness self = Ok (LightEffect.brightness light_effect))
  /\ ((forall light_effect,
         registry self !! SmartLightEffect = Some light_effect ->
         LightEffect.is_active light_effect = false) ->
      brightness self = getitem (Brightness.data self) "brightness"
      /\ forall v, Brightness.data self !! "brightness" = Some v ->
                   brightness self = Ok v).
Proof.
  unfold Brightness.brightness. split.
  - intros le -> ->. reflexivity.
  - intros Hle.
    assert (match registry self !! SmartLightEffect with
            | Some light_effect =>
                if LightEffect.is_active light_effect
                then Ok (LightEffect.brightness light_effect)
                else getitem (Brightness.data self) "brightness"
            | None => getitem (Brightness.data self) "brightness"
            end = getitem (Brightness.data self) "brightness") as ->.
    { destruct (registry self !! SmartLightEffect) as [le|]; [|done].
      by rewrite (Hle le eq_refl). }
    split; [done|]. intros v Hv. unfold getitem. by rewrite Hv.
Qed.

(** C9: for every valid brightness value, [set_brightness] awaits the same
    single operation and returns that operation's outcome whatever the
    [transition] argument is ([None] included): the argument changes
    nothing and cannot make the call fail by itself. *)
Theorem set_brightness_ignores_transition (self : Brightness.t) (v : pyval)
    (z : Z) :
  int_value v = Some z -> 0 <= z <= 100 ->
  (forall t1 t2, set_brightness self v t1 = set_brightness self v t2)
  /\ exists op, forall transition dev,
       run dev (set_brightness self v transition) = ([op], dev op).
Proof.
  intros Hv Hz. split; [reflexivity|].
  pose proof (fun t => set_brightness_valid self v t z Hv Hz) as E.
  destruct (z =? 0).
  - exists TurnOff. intros t dev. rewrite E. apply run_await.
  - destruct (registry self !! SmartLightEffect) as [le|].
    + destruct (LightEffect.is_active le).
      * eexists. intros t dev. rewrite E. apply run_await.
      * eexists. intros t dev. rewrite E. apply run_await.
    + eexists. intros t dev. rewrite E. apply run_await.
Qed.

(** C10: booleans pass the validation of [set_brightness], [bool] being a
    subtype of [int]: [False] takes the power-off path, and [True], which
    equals 1, is written as the new brightness (through the light-effect
    module when one is registered and active, through [set_device_info]
    otherwise). *)
Theorem set_brightness_accepts_bool (self : Brightness.t)
    (transition : pyval) (dev : remote_op -> result response) :
  run dev (set_brightness self (PyBool false) transition)
  = ([TurnOff], dev TurnOff)
  /\ py_eq (PyBool true) (PyInt 1) = true
  /\ (forall light_effect,
        registry self !! SmartLightEffect = Some light_effect ->
        LightEffect.is_active light_effect = true ->
        run dev (set_brightness self (PyBool true) transition)
        = ([LightEffectSetBrightness (PyBool true)],
           dev (LightEffectSetBrightness (PyBool true))))
  /\ ((forall light_effect,
         registry self !! SmartLightEffect = Some light_effect ->
         LightEffect.is_active light_effect = false) ->
      run dev (set_brightness self (PyBool true) transition)
      = ([Call "set_device_info" {[ "brightness" := PyBool true ]}],
         dev (Call "set_device_info" {[ "brightness" := PyBool true ]}))).
Proof.
  split; [|split; [reflexivity|]].
  - rewrite (set_brightness_valid self (PyBool false) transition 0 eq_refl)
      by lia.
    apply run_await.
  - rewrite (set_brightness_valid self (PyBool true) transition 1 eq_refl)
      by lia.
    simpl. split.
    + intros le -> ->. apply run_await.
    + intros Hle. destruct (registry self !! SmartLightEffect) as [le|].
      * rewrite (Hle le eq_refl). apply run_await.
      * apply run_await.
Qed.

(** On a device that supports the module, a read without an active light
    effect does not fail. *)
Lemma brightness_supported (self : Brightness.t) :
  Brightness._check_supported self = true ->
  exists v, brightness self = Ok v.
Proof.
  intros Hs. apply bool_decide_eq_true in Hs as [v Hv].
  unfold Brightness.brightness, getitem. rewrite Hv.
  destruct (registry self !! SmartLightEffect) as [le|]; [|eauto].
  destruct (LightEffect.is_active le); eauto.
Qed.

End BrightnessProperties.

Lemma set_brightness_dispatch_witness :
  0 <= 40 <= 100
  /\ run flaky_device
       (Brightness.set_brightness LIGHT_EFFECT strip_effect_on (PyInt 40) PyNone)
     = ([LightEffectSetBrightness (PyInt 40)], Ok ∅).
Proof.
  split; [lia|].
  destruct (set_brightness_dispatch LIGHT_EFFECT strip_effect_on 40 PyNone
              flaky_device) as (_ & Heffect & _); [lia|].
  apply (Heffect ltac:(lia) (LightEffect.mk true (PyInt 70)));
    reflexivity.
Defined.



Lemma brightness_read_witness :
  Brightness.brightness LIGHT_EFFECT strip_effect_on = Ok (PyInt 70)
  /\ Brightness.brightness LIGHT_EFFECT strip_effect_off = Ok (PyInt 50).
Proof.
  split.
  - destruct (brightness_read LIGHT_EFFECT strip_effect_on) as [Hon _].
    apply (Hon (LightEffect.mk true (PyInt 70))); reflexivity.
  - destruct (brightness_read LIGHT_EFFECT strip_effect_off) as [_ Hoff].
    apply Hoff; [|reflexivity].
    intros le. vm_compute. intros [= <-]. reflexivity.
Defined.

Lemma set_brightness_ignores_transition_witness :
  int_value (PyInt 30) = Some 30 /\ 0 <= 30 <= 100
  /\ Brightness.set_brightness LIGHT_EFFECT plain_bulb (PyInt 30) PyNone
     = Brightness.set_brightness LIGHT_EFFECT plain_bulb (PyInt 30) (PyInt 5).
Proof.
  split; [reflexivity|]. split; [lia|].
  apply (set_brightness_ignores_transition LIGHT_EFFECT plain_bulb (PyInt 30)
           30 eq_refl); lia.
Defined.

Lemma set_brightness_accepts_bool_witness :
  run flaky_device
    (Brightness.set_brightness LIGHT_EFFECT strip_effect_off (PyBool true) PyNone)
  = ([Call "set_device_info" {[ "brightness" := PyBool true ]}],
     Err (RemoteError "timeout")).
Proof.
  destruct (set_brightness_accepts_bool LIGHT_EFFECT strip_effect_off PyNone
              flaky_device) as (_ & _ & _ & Hplain).
  apply Hplain. intros le. vm_compute. intros [= <-]. reflexivity.
Defined.


(** ** Status records *)

Lemma unit_pairs_cases (canonical milli : string) :
  (canonical, milli) ∈ EmeterStatus.unit_pairs ->
  (canonical, milli) = ("voltage", "voltage_mv")
  \/ (canonical, milli) = ("current", "current_ma")
  \/ (canonical, milli) = ("power", "power_mw")
  \/ (canonical, milli) = ("total", "total_wh").
Proof.
  unfold EmeterStatus.unit_pairs. rewrite !elem_of_cons, elem_of_nil. tauto.
Qed.

Lemma exact_mul_div (v : Q) : (v / 1000 * 1000 == v)%Q.
Proof. field. Qed.

Section StatusProperties.

Context {num : Type} {N : Number num}.

(** Both members of a unit pair, as [status[key]] reports them. *)
Lemma getitem_pair (raw : gmap string num) (canonical milli : string) :
  (canonical, milli) ∈ EmeterStatus.unit_pairs ->
  EmeterStatus.getitem raw canonical
  = Ok (match raw !! canonical with
        | Some c => Some c
        | None => EmeterStatus.to_canonical <$> raw !! milli
        end)
  /\ EmeterStatus.getitem raw milli
     = match raw !! milli with
       | Some m => Ok (Some m)
       | None =>
           match raw !! canonical with
           | Some c => Ok (Some (EmeterStatus.to_milli c))
           | None => Err (KeyError canonical)
           end
       end.
Proof.
  intros H. apply unit_pairs_cases in H.
  destruct H as [H|[H|[H|H]]]; injection H as -> ->;
    unfold EmeterStatus.getitem; simpl;
    (split; [destruct (raw !! _) | destruct (raw !! _)]; reflexivity).
Qed.



End StatusProperties.



(** The model agrees with [test_emeterstatus_missing_current]: 123 mA read
    as 0.123 A, a key error for "invalid_key", and [None] for the current
    of a reading without any current key. *)
#[local] Set Warnings "-inexact-float".
Example test_emeterstatus_missing_current :
  EmeterStatus.getitem regular "current" = Ok (Some 0.123%float)
  /\ EmeterStatus.getitem regular "invalid_key"
     = Err (KeyError "invalid_key")
  /\ EmeterStatus.getitem missing_current "current" = Ok None.
Proof. repeat split; reflexivity. Qed.
#[local] Set Warnings "+inexact-float".

(** C4, as stated, fails on binary64 floats: a reading of 1001 mW gives
    the power 1001 / 1000, and that power times 1000 is not 1001. *)
Lemma status_milli_identity_inexact_binary64 :
  ~ EmeterStatus.milli_identity reading_1001mw "power" "power_mw".
Proof.
  intros (c & m & Hc & Hm & Heq).
  vm_compute in Hc. vm_compute in Hm.
  injection Hc as <-. injection Hm as <-.
  vm_compute in Heq. discriminate Heq.
Qed.

(** C4 (amended): in every status record the absent member of a unit pair
    is the present one multiplied (canonical to milli) or divided (milli to
    canonical) by 1000, whatever the arithmetic; the identities
    power_mw == power * 1000, voltage_mv == voltage * 1000,
    current_ma == current * 1000 and total_wh == total * 1000 hold exactly
    in exact arithmetic for every pair the reading reports, and on
    binary64 floats when the canonical member is the reported one. *)
Theorem status_milli_identity :
  (forall (num : Type) (N : Number num) (raw : gmap string num)
          (canonical milli : string),
     (canonical, milli) ∈ EmeterStatus.unit_pairs ->
     (forall c, raw !! canonical = Some c -> raw !! milli = None ->
        EmeterStatus.getitem raw canonical = Ok (Some c)
        /\ EmeterStatus.getitem raw milli = Ok (Some (num_mul c thousand)))
     /\ (forall m, raw !! milli = Some m -> raw !! canonical = None ->
           EmeterStatus.getitem raw milli = Ok (Some m)
           /\ EmeterStatus.getitem raw canonical
              = Ok (Some (num_div m thousand))))
  /\ (forall (raw : gmap string Q) (canonical milli : string),
        (canonical, milli) ∈ EmeterStatus.unit_pairs ->
        is_Some (raw !! canonical) \/ is_Some (raw !! milli) ->
        (forall c m, raw !! canonical = Some c -> raw !! milli = Some m ->
                     (m == c * 1000)%Q) ->
        EmeterStatus.milli_identity raw canonical milli)
  /\ (forall (raw : gmap string float) (canonical milli : string) (c : float),
        (canonical, milli) ∈ EmeterStatus.unit_pairs ->
        raw !! canonical = Some c -> raw !! milli = None ->
        PrimFloat.is_nan (c * 1000) = false ->
        EmeterStatus.milli_identity raw canonical milli).
Proof.
  split; [|split].
  - intros num N raw canonical milli Hpair.
    destruct (getitem_pair raw canonical milli Hpair) as [-> ->].
    split; intros v -> ->; split; reflexivity.
  - intros raw canonical milli Hpair Hsome Hboth.
    unfold EmeterStatus.milli_identity.
    destruct (getitem_pair raw canonical milli Hpair) as [-> ->].
    destruct (raw !! canonical) as [c|] eqn:Ec;
      destruct (raw !! milli) as [m|] eqn:Em; simpl.
    + exists c, m. repeat split. apply Qeq_bool_iff. by apply Hboth.
    + exists c, (EmeterStatus.to_milli c). repeat split.
      apply Qeq_bool_iff. reflexivity.
    + exists (EmeterStatus.to_canonical m), m. repeat split.
      apply Qeq_bool_iff. symmetry. apply exact_mul_div.
    + destruct Hsome as [[? ?]|[? ?]]; done.
  - intros raw canonical milli c Hpair Hc Hm Hnan.
    exists c, (c * 1000)%float.
    destruct (getitem_pair raw canonical milli Hpair) as [-> ->].
    rewrite Hc, Hm. repeat split.
    apply negb_false_iff. exact Hnan.
Qed.

Lemma status_milli_identity_witness :
  EmeterStatus.milli_identity regular_exact "current" "current_ma"
  /\ EmeterStatus.getitem reading_1001mw "power"
     = Ok (Some (1001 / 1000)%float).
Proof.
  destruct status_milli_identity as (Hderived & Hexact & _). split.
  - apply Hexact.
    + compute_done.
    + right. vm_compute. eauto.
    + intros c m Hc. vm_compute in Hc. discriminate Hc.
  - destruct (Hderived float binary64 reading_1001mw "power" "power_mw")
      as [_ Hmilli]; [compute_done|].
    apply (Hmilli 1001%float); reflexivity.
Defined.

(** ** Historical statistics *)

Lemma filter_none {A : Type} (P : A -> Prop) `{forall x, Decision (P x)}
    (l : list A) :
  (forall x, x ∈ l -> ~ P x) -> filter P l = [].
Proof.
  induction l as [|x l IH]; intros Hl; [reflexivity|].
  rewrite filter_cons_False by (apply Hl; left).
  apply IH. intros y Hy. apply Hl. by right.
Qed.

Section StatisticsProperties.

Context {num : Type} {N : Number num}.

Section Mapping.

Context {E : Type} (key : E -> Z) (energy : E -> num).

Lemma to_mapping_nil (kwh : bool) :
  Emeter.to_mapping key energy kwh [] = ∅.
Proof. reflexivity. Qed.

Lemma to_mapping_snoc (kwh : bool) (entries : list E) (e : E) :
  Emeter.to_mapping key energy kwh (entries ++ [e])
  = <[key e := Emeter.scale kwh (energy e)]>
      (Emeter.to_mapping key energy kwh entries).
Proof. unfold Emeter.to_mapping. by rewrite foldl_snoc. Qed.

(** The value under a calendar key is the one of the last entry with that
    key. *)
Lemma to_mapping_lookup (kwh : bool) (entries : list E) (k : Z) :
  Emeter.to_mapping key energy kwh entries !! k
  = (fun e => Emeter.scale kwh (energy e))
      <$> last (filter (fun e => key e = k) entries).
Proof.
  induction entries as [|e entries IH] using rev_ind; [reflexivity|].
  rewrite to_mapping_snoc, filter_app, lookup_insert.
  rewrite filter_cons, filter_nil. repeat case_decide; try congruence.
  - by rewrite last_snoc.
  - by rewrite app_nil_r.
Qed.

(** Asking for kWh scales every reported value by 1/1000 and changes
    nothing else. *)
Lemma to_mapping_kwh (entries : list E) :
  Emeter.to_mapping key energy true entries
  = (fun wh => num_mul wh (num_div one thousand))
      <$> Emeter.to_mapping key energy false entries.
Proof.
  induction entries as [|e entries IH] using rev_ind.
  - by rewrite !to_mapping_nil, fmap_empty.
  - by rewrite !to_mapping_snoc, fmap_insert, IH.
Qed.

End Mapping.

(** C6: when the year and month asked for select no retained entry (such
    as year 1900, month 1), [get_daily_stats] returns the empty mapping,
    and when the year selects no retained monthly entry
    [get_monthly_stats] returns the empty mapping; both calls return. *)
Theorem stats_empty_when_nothing_selected
    (day_list : list (DayStat.t num)) (month_list : list (MonthStat.t num))
    (now : Date.t) (year month : option Z) (kwh : bool) :
  ((forall e, e ∈ day_list ->
      ~ (DayStat.year e = default (Date.year now) year
         /\ DayStat.month e = default (Date.month now) month)) ->
   Emeter.get_daily_stats day_list now year month kwh = ∅)
  /\ ((forall e, e ∈ month_list ->
         MonthStat.year e <> default (Date.year now) year) ->
      Emeter.get_monthly_stats month_list now year kwh = ∅).
Proof.
  split; intros Hnone.
  - unfold Emeter.get_daily_stats. simpl.
    rewrite filter_none by assumption. apply to_mapping_nil.
  - unfold Emeter.get_monthly_stats. simpl.
    rewrite filter_none by assumption. apply to_mapping_nil.
Qed.

End StatisticsProperties.

Lemma stats_empty_when_nothing_selected_witness :
  Emeter.get_daily_stats (test_day_list a_monday) a_monday
    (Some 1900) (Some 1) true = ∅
  /\ Emeter.get_monthly_stats [MonthStat.mk 2023 1 8%float] a_monday
       (Some 1900) true = ∅.
Proof.
  destruct (stats_empty_when_nothing_selected (test_day_list a_monday)
              [MonthStat.mk 2023 1 8%float] a_monday (Some 1900) (Some 1)
              true)
    as [Hday Hmonth].
  split.
  - apply Hday. intros e He [Hy _]. revert Hy. simpl.
    apply list_elem_of_In in He. simpl in He.
    destruct He as [<-|[<-|[]]]; simpl; lia.
  - apply Hmonth. intros e He. apply list_elem_of_In in He. simpl in He.
    destruct He as [<-|[]]. simpl. lia.
Defined.

Lemma to_mapping_stored {num : Type} {N : Number num} {E : Type}
    (key : E -> Z) (energy : E -> num) (entries : list E) (k : Z) (v : num) :
  Emeter.to_mapping key energy false entries !! k = Some v ->
  exists e, e ∈ entries /\ energy e = v.
Proof.
  rewrite to_mapping_lookup. intros H.
  destruct (last _) as [e|] eqn:Hlast; [|discriminate H].
  injection H as <-. apply last_Some_elem_of in Hlast.
  apply list_elem_of_filter in Hlast as [_ Hin]. eauto.
Qed.

Lemma all_in_sound (P : Z -> bool) (lo : Z) (bits : nat) :
  all_in P lo bits = true ->
  forall z, lo <= z < lo + 2 ^ Z.of_nat bits -> P z = true.
Proof.
  revert lo. induction bits as [|b IH]; intros lo H z Hz.
  - simpl in *. assert (z = lo) as -> by lia. exact H.
  - simpl in H. apply andb_true_iff in H as [H1 H2].
    rewrite Nat2Z.inj_succ, Z.pow_succ_r in Hz by lia.
    destruct (Z_lt_ge_dec z (lo + 2 ^ Z.of_nat b)).
    + apply (IH lo H1). lia.
    + apply (IH _ H2). lia.
Qed.

(** Every whole number of watt-hours below 2^20 survives the scaling to
    kWh and back to within one unit in the last place. *)
Lemma kwh_round_trip_below_2_20 (z : Z) :
  0 <= z < 2 ^ 20 -> kwh_round_trip z = true.
Proof.
  apply (all_in_sound kwh_round_trip 0 20). vm_compute. reflexivity.
Qed.

(** C7, as stated, fails on binary64 floats: a day with 1001 Wh is
    reported as 1001 * (1/1000) kWh, and that value times 1000 is not
    1001. *)
Lemma stats_wh_is_1000_kwh_inexact_binary64 :
  ~ Emeter.wh_is_1000_kwh
      (Emeter.get_daily_stats day_list_1001wh a_monday (Some 2023) (Some 1))
      1.
Proof.
  intros H. destruct (H (1001 * (1 / 1000))%float eq_refl) as (w & Hw & Heq).
  vm_compute in Hw. injection Hw as <-.
  vm_compute in Heq. discriminate Heq.
Qed.

(** C7 (amended): for every calendar key, the value [get_daily_stats]
    (and likewise [get_monthly_stats]) reports with kwh=true is the one it
    reports with kwh=false scaled by 1/1000, the latter being the stored Wh
    value of the last selected entry with that key; both results have the
    same keys.  The kwh=false value is the kwh=true value times 1000
    exactly in exact arithmetic, and on binary64 floats to within one unit
    in the last place when the stored values are whole numbers of Wh below
    2^20. *)
Theorem stats_wh_is_1000_kwh :
  (forall (num : Type) (N : Number num)
          (day_list : list (DayStat.t num))
          (month_list : list (MonthStat.t num))
          (now : Date.t) (year month : option Z) (k : Z),
     let daily := Emeter.get_daily_stats day_list now year month in
     let monthly := Emeter.get_monthly_stats month_list now year in
     daily true !! k
     = (fun wh => num_mul wh (num_div one thousand)) <$> daily false !! k
     /\ monthly true !! k
        = (fun wh => num_mul wh (num_div one thousand)) <$> monthly false !! k
     /\ daily false !! k
        = DayStat.energy_wh
            <$> last (filter (fun e => DayStat.day e = k)
                        (filter
                           (fun e =>
                              DayStat.year e = default (Date.year now) year
                              /\ DayStat.month e
                                 = default (Date.month now) month)
                           day_list))
     /\ monthly false !! k
        = MonthStat.energy_wh
            <$> last (filter (fun e => MonthStat.month e = k)
                        (filter
                           (fun e =>
                              MonthStat.year e
                              = default (Date.year now) year)
                           month_list)))
  /\ (forall (day_list : list (DayStat.t Q))
             (month_list : list (MonthStat.t Q))
             (now : Date.t) (year month : option Z) (k : Z),
        Emeter.wh_is_1000_kwh
          (Emeter.get_daily_stats day_list now year month) k
        /\ Emeter.wh_is_1000_kwh
             (Emeter.get_monthly_stats month_list now year) k)
  /\ (forall (day_list : list (DayStat.t float))
             (month_list : list (MonthStat.t float))
             (now : Date.t) (year month : option Z) (k : Z),
        (forall e, e ∈ day_list ->
           exists z, 0 <= z < 2 ^ 20 /\ DayStat.energy_wh e = whole_wh z) ->
        (forall e, e ∈ month_list ->
           exists z, 0 <= z < 2 ^ 20 /\ MonthStat.energy_wh e = whole_wh z) ->
        (forall v,
           Emeter.get_daily_stats day_list now year month true !! k = Some v ->
           exists v2,
             Emeter.get_daily_stats day_list now year month false !! k
             = Some v2
             /\ within_one_ulp (v * 1000)%float v2 = true)
        /\ (forall v,
              Emeter.get_monthly_stats month_list now year true !! k
              = Some v ->
              exists v2,
                Emeter.get_monthly_stats month_list now year false !! k
                = Some v2
                /\ within_one_ulp (v * 1000)%float v2 = true)).
Proof.
  assert (forall (num : Type) (N : Number num) (E : Type) (key : E -> Z)
                 (energy : E -> num) (entries : list E) (k : Z),
            Emeter.to_mapping key energy true entries !! k
            = (fun wh => num_mul wh (num_div one thousand))
                <$> Emeter.to_mapping key energy false entries !! k) as Hkwh.
  { intros. by rewrite to_mapping_kwh, lookup_fmap. }
  split; [|split].
  - intros num N day_list month_list now year month k daily monthly.
    subst daily monthly.
    unfold Emeter.get_daily_stats, Emeter.get_monthly_stats. simpl.
    repeat split; auto using to_mapping_lookup.
  - intros day_list month_list now year month k.
    unfold Emeter.get_daily_stats, Emeter.get_monthly_stats. simpl.
    split; intros v; rewrite Hkwh;
      (destruct (Emeter.to_mapping _ _ false _ !! k) as [w|];
       [|discriminate]);
      intros [= <-]; exists w; (split; [reflexivity|]);
      apply Qeq_bool_iff; simpl; field.
  - intros day_list month_list now year month k Hdays Hmonths.
    unfold Emeter.get_daily_stats, Emeter.get_monthly_stats. simpl.
    split; intros v; rewrite Hkwh;
      (destruct (Emeter.to_mapping _ _ false _ !! k) as [w|] eqn:Hw;
       [|discriminate]);
      intros [= <-]; exists w; (split; [reflexivity|]);
      apply to_mapping_stored in Hw as (e & He & <-);
      apply list_elem_of_filter in He as [_ He].
    + destruct (Hdays e He) as (z & Hz & ->).
      exact (kwh_round_trip_below_2_20 z Hz).
    + destruct (Hmonths e He) as (z & Hz & ->).
      exact (kwh_round_trip_below_2_20 z Hz).
Qed.

Lemma stats_wh_is_1000_kwh_witness :
  (Emeter.get_daily_stats day_list_exact a_monday (Some 2023) (Some 1) true
     !! 1 = Some (1001 * (1 / 1000))%Q
   /\ exists w,
        Emeter.get_daily_stats day_list_exact a_monday (Some 2023) (Some 1)
          false !! 1 = Some w
        /\ Qeq_bool (1001 * (1 / 1000) * 1000) w = true)
  /\ exists v2,
       Emeter.get_daily_stats day_list_1001wh a_monday (Some 2023) (Some 1)
         false !! 1 = Some v2
       /\ within_one_ulp (1001 * (1 / 1000) * 1000)%float v2 = true.
Proof.
  assert (Emeter.get_daily_stats day_list_exact a_monday (Some 2023) (Some 1)
            true !! 1 = Some (1001 * (1 / 1000))%Q) as Hv by reflexivity.
  destruct stats_wh_is_1000_kwh as (_ & Hexact & Hfloat).
  split.
  - split; [exact Hv|].
    destruct (Hexact day_list_exact [] a_monday (Some 2023) (Some 1) 1)
      as [Hdaily _].
    exact (Hdaily _ Hv).
  - destruct (Hfloat day_list_1001wh [] a_monday (Some 2023) (Some 1) 1)
      as [Hdaily _].
    + intros e He. apply list_elem_of_singleton in He as ->.
      exists 1001. split; [lia|reflexivity].
    + intros e He. by apply elem_of_nil in He.
    + exact (Hdaily (1001 * (1 / 1000))%float eq_refl).
Defined.

(** ** Today's consumption *)

Section TodayProperties.

Context {num : Type} {N : Number num}.




End TodayProperties.



(** * Further properties of the brightness module *)

(** How a call of [set_brightness] runs, for every argument. *)
Lemma set_brightness_cases (key : string) (self : Brightness.t)
    (v transition : pyval) (dev : remote_op -> result response) :
  (exists z op,
      int_value v = Some z /\ 0 <= z <= 100
      /\ run dev (Brightness.set_brightness key self v transition)
         = ([op], dev op)
      /\ ((z = 0 /\ op = TurnOff)
          \/ (z <> 0
              /\ (exists le, modules (Brightness._device self) !! key = Some le
                             /\ LightEffect.is_active le = true)
              /\ op = LightEffectSetBrightness v)
          \/ (z <> 0
              /\ (forall le, modules (Brightness._device self) !! key = Some le
                             -> LightEffect.is_active le = false)
              /\ op = Call "set_device_info" {[ "brightness" := v ]})))
  \/ ((forall z, int_value v = Some z -> ~ 0 <= z <= 100)
      /\ exists e,
           run dev (Brightness.set_brightness key self v transition)
           = ([], Err e)).
Proof.
  destruct (int_value v) as [z|] eqn:Hv.
  - destruct (decide (0 <= z <= 100)) as [Hz|Hz].
    + left. exists z.
      rewrite (set_brightness_valid key self v transition z Hv Hz).
      destruct (Z.eqb_spec z 0) as [->|Hnz].
      * exists TurnOff. rewrite run_await. auto 10.
      * destruct (modules (Brightness._device self) !! key) as [le|] eqn:Hle.
        -- destruct (LightEffect.is_active le) eqn:Hact.
           ++ eexists. rewrite run_await.
              do 3 (split; [done|]). right. left. eauto 10.
           ++ eexists. rewrite run_await.
              do 3 (split; [done|]). right. right.
              split; [done|]. split; [by intros le' [= <-]|done].
        -- eexists. rewrite run_await.
           do 3 (split; [done|]). right. right. done.
    + right.
      assert (forall z', Some z = Some z' -> ~ 0 <= z' <= 100) as Hinv
        by (by intros z' [= <-]).
      split; [exact Hinv|].
      rewrite set_brightness_invalid by (by rewrite Hv).
      destruct (py_str v); eexists; reflexivity.
  - right.
    assert (forall z', @None Z = Some z' -> ~ 0 <= z' <= 100) as Hinv by done.
    split; [exact Hinv|].
    rewrite set_brightness_invalid by (by rewrite Hv).
    destruct (py_str v); eexists; reflexivity.
Qed.

(** X1: whatever its argument, [set_brightness] awaits at most one
    operation, and it awaits none exactly when the argument is not an
    integer in [0, 100]. *)
Theorem set_brightness_at_most_one_operation (key : string)
    (self : Brightness.t) (v transition : pyval)
    (dev : remote_op -> result response) :
  let ops := fst (run dev (Brightness.set_brightness key self v transition)) in
  (length ops <= 1)%nat
  /\ (ops = [] <-> forall z, int_value v = Some z -> ~ 0 <= z <= 100).
Proof.
  simpl.
  destruct (set_brightness_cases key self v transition dev)
    as [(z & op & Hv & Hz & -> & _)|(Hinv & e & ->)]; simpl.
  - split; [lia|]. split; [done|]. intros H. by destruct (H z Hv).
  - split; [lia|]. done.
Qed.

(** X2: the only operations [set_brightness] ever awaits are a power-off,
    for the value 0, and a brightness write (to the light effect or as the
    single parameter of [set_device_info]) of the very value it was given,
    which then lies in [1, 100]: no zero and no out-of-range brightness
    reaches the device. *)
Theorem set_brightness_sends_only_valid_levels (key : string)
    (self : Brightness.t) (v transition : pyval)
    (dev : remote_op -> result response) (op : remote_op) :
  op ∈ fst (run dev (Brightness.set_brightness key self v transition)) ->
  (op = TurnOff /\ int_value v = Some 0)
  \/ (exists z, int_value v = Some z /\ 1 <= z <= 100
                /\ (op = LightEffectSetBrightness v
                    \/ op = Call "set_device_info" {[ "brightness" := v ]})).
Proof.
  destruct (set_brightness_cases key self v transition dev)
    as [(z & op' & Hv & Hz & -> & Hop)|(Hinv & e & ->)]; simpl.
  - intros Hin. apply list_elem_of_singleton in Hin as ->.
    destruct Hop as [[-> ->]|[(Hnz & _ & ->)|(Hnz & _ & ->)]].
    + by left.
    + right. exists z. repeat split; try done; try lia. by left.
    + right. exists z. repeat split; try done; try lia. by right.
  - intros Hin. by apply elem_of_nil in Hin.
Qed.

Lemma set_brightness_sends_only_valid_levels_witness :
  exists z, int_value (PyBool true) = Some z /\ 1 <= z <= 100.
Proof.
  destruct (set_brightness_sends_only_valid_levels LIGHT_EFFECT
              strip_effect_on (PyBool true) PyNone flaky_device
              (LightEffectSetBrightness (PyBool true)))
    as [[Hoff _]|(z & Hv & Hz & _)].
  - vm_compute. apply list_elem_of_here.
  - discriminate Hoff.
  - exists z. split; assumption.
Defined.

(** X3: the feature [_initialize_features] registers last is the
    brightness feature of this very module, and the range it advertises is
    exactly the set of integers its setter accepts: [set_brightness]
    awaits an operation for an integer if and only if it lies between the
    advertised minimum and maximum. *)
Theorem feature_range_is_accepted_range (key : string)
    (inherited : list (Feature.t Brightness.t)) (self : Brightness.t)
    (f : Feature.t Brightness.t) (z : Z) (transition : pyval)
    (dev : remote_op -> result response) :
  last (Brightness._initialize_features inherited self) = Some f ->
  Feature.container f = self
  /\ Feature.id f = Brightness.REQUIRED_COMPONENT
  /\ Feature.attribute_getter f = "brightness"
  /\ Feature.attribute_setter f = "set_brightness"
  /\ (fst (Feature.range_getter f ()) <= z <= snd (Feature.range_getter f ())
      <-> exists op,
            run dev (Brightness.set_brightness key (Feature.container f)
                       (PyInt z) transition)
            = ([op], dev op)).
Proof.
  unfold Brightness._initialize_features. rewrite last_snoc.
  intros [= <-]. simpl. do 4 (split; [reflexivity|]).
  unfold Brightness.BRIGHTNESS_MIN, Brightness.BRIGHTNESS_MAX.
  destruct (set_brightness_cases key self (PyInt z) transition dev)
    as [(z' & op & Hv & Hz & Hrun & _)|(Hinv & e & Hrun)].
  - injection Hv as <-. split; [eauto|done].
  - split.
    + intros Hz. by destruct (Hinv z eq_refl).
    + intros [op Hop]. rewrite Hrun in Hop. discriminate Hop.
Qed.

Lemma feature_range_is_accepted_range_witness :
  exists op,
    run flaky_device
      (Brightness.set_brightness LIGHT_EFFECT plain_bulb (PyInt 100) PyNone)
    = ([op], flaky_device op).
Proof.
  destruct (feature_range_is_accepted_range LIGHT_EFFECT [] plain_bulb
              (Feature.mk (Brightness._device plain_bulb) "brightness"
                 "Brightness" plain_bulb "brightness" "set_brightness"
                 (fun _ => (Brightness.BRIGHTNESS_MIN,
                            Brightness.BRIGHTNESS_MAX))
                 Feature.Number Feature.Primary)
              100 PyNone flaky_device eq_refl)
    as (_ & _ & _ & _ & Hrange).
  apply Hrange. simpl. unfold Brightness.BRIGHTNESS_MIN,
    Brightness.BRIGHTNESS_MAX. lia.
Defined.

(** X4: reading [brightness] fails only with [KeyError('brightness')], and
    it does so exactly when no light effect is active and the module is
    not supported, that is when the raw snapshot has no "brightness"
    key. *)
Theorem brightness_read_fails_iff (key : string) (self : Brightness.t)
    (e : exn) :
  Brightness.brightness key self = Err e
  <-> e = KeyError "brightness"
      /\ Brightness._check_supported self = false
      /\ (forall le, modules (Brightness._device self) !! key = Some le ->
                     LightEffect.is_active le = false).
Proof.
  unfold Brightness.brightness, Brightness._check_supported, getitem.
  destruct (Brightness.data self !! "brightness") as [v|] eqn:Hd.
  - rewrite bool_decide_eq_true_2 by eauto. split.
    + destruct (modules (Brightness._device self) !! key) as [le|];
        [destruct (LightEffect.is_active le)|]; intros H; discriminate H.
    + intros (_ & H & _). discriminate H.
  - rewrite bool_decide_eq_false_2 by (by intros [? ?]).
    destruct (modules (Brightness._device self) !! key) as [le|].
    + destruct (LightEffect.is_active le) eqn:Hact.
      * split; [intros H; discriminate H|]. intros (_ & _ & H).
        specialize (H le eq_refl). congruence.
      * split.
        -- intros [= <-]. repeat split. by intros le' [= <-].
        -- by intros (-> & _).
    + split.
      * intros [= <-]. repeat split. intros le H. discriminate H.
      * by intros (-> & _).
Qed.

(** X5: reads and writes agree on who owns the brightness: for a value in
    [1, 100], [set_brightness] writes through the light-effect module
    exactly when a read of [brightness] does not depend on the module's
    own raw snapshot. *)
Theorem write_target_is_read_source (key : string) (self : Brightness.t)
    (z : Z) (transition : pyval) (dev : remote_op -> result response) :
  1 <= z <= 100 ->
  fst (run dev (Brightness.set_brightness key self (PyInt z) transition))
  = [LightEffectSetBrightness (PyInt z)]
  <-> reads_ignore_snapshot key self.
Proof.
  intros Hz. unfold reads_ignore_snapshot.
  destruct (set_brightness_cases key self (PyInt z) transition dev)
    as [(z' & op & Hv & _ & -> & Hop)|(Hinv & _)];
    [injection Hv as <-|destruct (Hinv z eq_refl); lia].
  simpl. unfold Brightness.brightness. simpl.
  destruct Hop as [[-> _]|[(_ & (le & -> & ->) & ->)|(_ & Hle & ->)]];
    [lia| |].
  - split; [reflexivity|done].
  - split; [intros H; discriminate H|]. intros H.
    pose proof (H ∅) as H0. pose proof (H {[ "brightness" := PyNone ]}) as H1.
    rewrite <- H1 in H0. clear H H1.
    destruct (modules (Brightness._device self) !! key) as [le|].
    + rewrite (Hle le eq_refl) in H0. discriminate H0.
    + discriminate H0.
Qed.

Lemma write_target_is_read_source_witness :
  1 <= 40 <= 100 /\ reads_ignore_snapshot LIGHT_EFFECT strip_effect_on.
Proof.
  split; [lia|].
  apply (write_target_is_read_source LIGHT_EFFECT strip_effect_on 40 PyNone
           flaky_device); [lia|reflexivity].
Defined.

Lemma string_length_app (s1 s2 : string) :
  String.length (s1 +:+ s2) = (String.length s1 + String.length s2)%nat.
Proof. induction s1 as [|a s1 IH]; simpl; [reflexivity|]. by rewrite IH. Qed.

Lemma string_app_inv_tail (s1 s2 t : string) :
  s1 +:+ t = s2 +:+ t -> s1 = s2.
Proof.
  revert s2. induction s1 as [|a s1 IH]; intros [|b s2] H; simpl in H.
  - reflexivity.
  - apply (f_equal String.length) in H.
    rewrite !string_length_app in H. simpl in H. lia.
  - apply (f_equal String.length) in H.
    rewrite !string_length_app in H. simpl in H. lia.
  - injection H as -> H. f_equal. by apply IH.
Qed.

(** X6: the error of a rejected integer identifies it, as long as the
    interpreter can render it: if an integer outside [0, 100] with at most
    4300 digits and another integer outside [0, 100] make [set_brightness]
    fail with the same exception, they are the same integer. *)
Theorem invalid_value_error_identifies_integer (key : string)
    (self : Brightness.t) (z1 z2 : Z) (transition : pyval)
    (dev : remote_op -> result response) :
  ~ 0 <= z1 <= 100 -> ~ 0 <= z2 <= 100 ->
  Z.abs z1 < 10 ^ INT_MAX_STR_DIGITS ->
  snd (run dev (Brightness.set_brightness key self (PyInt z1) transition))
  = snd (run dev (Brightness.set_brightness key self (PyInt z2) transition)) ->
  z1 = z2.
Proof.
  intros H1 H2 Hlimit.
  rewrite !set_brightness_invalid by (by intros z [= <-]).
  unfold py_str, exceeds_str_digits.
  destruct (Z.leb_spec (10 ^ INT_MAX_STR_DIGITS) (Z.abs z1)) as [Hge|_].
  { set (bound := 10 ^ INT_MAX_STR_DIGITS) in *. clearbody bound. lia. }
  destruct (Z.leb_spec (10 ^ INT_MAX_STR_DIGITS) (Z.abs z2)) as [_|_].
  - generalize (pretty INT_MAX_STR_DIGITS). intros limit.
    simpl. intros H. injection H as H. discriminate H.
  - simpl. intros [= H].
    change (pretty z1 +:+ " (valid range: 0-100%)"
            = pretty z2 +:+ " (valid range: 0-100%)") in H.
    apply string_app_inv_tail in H. by apply (inj pretty).
Qed.

Lemma invalid_value_error_identifies_integer_witness :
  ~ 0 <= 101 <= 100 /\ ~ 0 <= -1 <= 100
  /\ Z.abs 101 < 10 ^ INT_MAX_STR_DIGITS
  /\ snd (run flaky_device
            (Brightness.set_brightness LIGHT_EFFECT plain_bulb (PyInt 101)
               PyNone))
     <> snd (run flaky_device
               (Brightness.set_brightness LIGHT_EFFECT plain_bulb
                  (PyInt (-1)) PyNone)).
Proof.
  assert (Z.abs 101 < 10 ^ INT_MAX_STR_DIGITS) as Hlimit
    by (vm_compute; reflexivity).
  split; [lia|]. split; [lia|]. split; [exact Hlimit|]. intros H.
  apply (invalid_value_error_identifies_integer LIGHT_EFFECT plain_bulb 101
           (-1) PyNone flaky_device) in H; [lia|lia|lia|exact Hlimit].
Defined.

(** X7: a write consults neither the raw snapshot nor the light effect's
    current brightness: on two modules whose registries agree on whether a
    light effect is registered and active, [set_brightness] is the same
    program, so a value equal to the cached one is still written. *)
Theorem set_brightness_depends_on_active_flag_only (key : string)
    (self1 self2 : Brightness.t) (v transition : pyval) :
  LightEffect.is_active <$> modules (Brightness._device self1) !! key
  = LightEffect.is_active <$> modules (Brightness._device self2) !! key ->
  Brightness.set_brightness key self1 v transition
  = Brightness.set_brightness key self2 v transition.
Proof.
  intros H. unfold Brightness.set_brightness.
  destruct (modules (Brightness._device self1) !! key) as [le1|];
    destruct (modules (Brightness._device self2) !! key) as [le2|];
    simpl in H; try discriminate H; [|reflexivity].
  injection H as ->. reflexivity.
Qed.

Lemma set_brightness_depends_on_active_flag_only_witness :
  run flaky_device
    (Brightness.set_brightness LIGHT_EFFECT strip_effect_off (PyInt 50) PyNone)
  = run flaky_device
      (Brightness.set_brightness LIGHT_EFFECT
         (Brightness.mk
            {| modules := {[ LIGHT_EFFECT := LightEffect.mk false (PyInt 1) ]} |}
            ∅)
         (PyInt 50) PyNone).
Proof.
  pose proof (set_brightness_depends_on_active_flag_only LIGHT_EFFECT
                strip_effect_off
                (Brightness.mk
                   {| modules :=
                        {[ LIGHT_EFFECT := LightEffect.mk false (PyInt 1) ]} |}
                   ∅)
                (PyInt 50) PyNone) as H.
  exact (f_equal (run flaky_device) (H ltac:(vm_compute; reflexivity))).
Defined.
